(** * Launcher of eClipLint: src/pyoxidizer/src/main.rs

    The program is a Rust [main] that builds an embedded Python interpreter
    with [pyembed::MainPythonInterpreter::new()] and calls its [run] method
    with a closure; the closure executes a fixed Python snippet with
    [py.run(code, None, None)]:

<<
    import sys
    from clipfix.main import main
    sys.exit(main())
>>

    Two layers are modelled.
    - The Python snippet: the literal, a parser of its three kinds of lines
      and an interpreter of the resulting statements over a
      table of importable modules, recording every call of a user function.
    - The Rust [main]: a program over host calls (interpreter creation,
      interpreter run with a closure, reads of argv and of the environment),
      run against a library oracle that answers or terminates the process.
      [pyembed] is an external crate: its behaviour is an oracle here. *)

From Stdlib Require Import String Ascii List ZArith Bool.
Import ListNotations.
Open Scope string_scope.

(* ------------------------------------------------------------------ *)
(** ** The bootstrap snippet (main.rs, lines 6-10) *)

Definition bootstrap_src : string :=
"
import sys
from clipfix.main import main
sys.exit(main())
".

(** Statements of the snippet. [SCallOfCall o a f] is [o.a(f())]. *)
Inductive stmt : Type :=
| SImport (m : string)
| SFromImport (m n : string)
| SCallOfCall (o a f : string).

Fixpoint split_aux (c : ascii) (s cur : string) : list string :=
  match s with
  | EmptyString => [cur]
  | String x r =>
      if Ascii.eqb x c then cur :: split_aux c r EmptyString
      else split_aux c r (cur ++ String x EmptyString)
  end.

Definition split_on (c : ascii) (s : string) : list string :=
  split_aux c s EmptyString.

Definition newline : ascii := ascii_of_nat 10.

Definition parse_call (w : string) : option stmt :=
  match split_on "(" w with
  | [callee; f; close] =>
      if String.eqb close "))" then
        match split_on "." callee with
        | [o; a] => Some (SCallOfCall o a f)
        | _ => None
        end
      else None
  | _ => None
  end.

Definition parse_line (l : string) : option stmt :=
  match split_on " " l with
  | [kw; m] => if String.eqb kw "import" then Some (SImport m) else None
  | [kw1; m; kw2; n] =>
      if String.eqb kw1 "from" && String.eqb kw2 "import"
      then Some (SFromImport m n) else None
  | [w] => parse_call w
  | _ => None
  end.

Fixpoint parse_lines (ls : list string) : option (list stmt) :=
  match ls with
  | [] => Some []
  | l :: r =>
      if String.eqb l "" then parse_lines r
      else match parse_line l, parse_lines r with
           | Some s, Some ss => Some (s :: ss)
           | _, _ => None
           end
  end.

Definition parse_script (src : string) : option (list stmt) :=
  parse_lines (split_on newline src).

(* ------------------------------------------------------------------ *)
(** ** Python values, exceptions and modules *)

Inductive pyval : Type :=
| PyNone
| PyInt (z : Z)
| PyStr (s : string)
| PyOther (repr : string).

Inductive pyexc : Type :=
| SystemExit (v : pyval)
| ModuleNotFoundError (m : string)
| ImportError (n m : string)
| NameError (n : string)
| AttributeError (o a : string)
| TypeError (what : string)
| SyntaxError
| AppError (kind msg : string).

(** What a zero-argument function does when it is called. *)
Inductive call_outcome : Type :=
| Returns (v : pyval)
| Raises (e : pyexc).

Inductive binding : Type :=
| BModule (m : string)
| BFunc (o : call_outcome)
| BSysExit.

Fixpoint lookup {A} (k : string) (l : list (string * A)) : option A :=
  match l with
  | [] => None
  | (k', v) :: r => if String.eqb k k' then Some v else lookup k r
  end.

(** The importable user modules, with their attributes. *)
Definition module_table := list (string * list (string * binding)).

Definition sys_module : list (string * binding) := [("exit", BSysExit)].

(** [sys] is built into the interpreter and always importable. *)
Definition find_module (w : module_table) (m : string)
  : option (list (string * binding)) :=
  if String.eqb m "sys" then Some sys_module else lookup m w.

Record pystate := mkPyState {
  ns : list (string * binding);   (* the globals of the snippet *)
  invoked : list string           (* user functions called, in order *)
}.

Definition bind_name (st : pystate) (n : string) (b : binding) : pystate :=
  mkPyState ((n, b) :: ns st) (invoked st).

Definition record_call (st : pystate) (f : string) : pystate :=
  mkPyState (ns st) (invoked st ++ [f]).

Inductive exec_res : Type :=
| Done (st : pystate)
| Raised (e : pyexc) (st : pystate).

(** Calling an already evaluated callee with one argument. *)
Definition apply_callee (callee : binding) (name : string) (v : pyval)
    (st : pystate) : exec_res :=
  match callee with
  | BSysExit => Raised (SystemExit v) st
  | BFunc (Returns _) => Done (record_call st name)
  | BFunc (Raises e) => Raised e (record_call st name)
  | BModule _ => Raised (TypeError "'module' object is not callable") st
  end.

(** One statement. In [o.a(f())] the callee [o.a] is evaluated before the
    argument [f()], as in Python. *)
Definition exec_stmt (w : module_table) (st : pystate) (s : stmt) : exec_res :=
  match s with
  | SImport m =>
      match find_module w m with
      | Some _ => Done (bind_name st m (BModule m))
      | None => Raised (ModuleNotFoundError m) st
      end
  | SFromImport m n =>
      match find_module w m with
      | None => Raised (ModuleNotFoundError m) st
      | Some attrs =>
          match lookup n attrs with
          | Some b => Done (bind_name st n b)
          | None => Raised (ImportError n m) st
          end
      end
  | SCallOfCall o a f =>
      match lookup o (ns st) with
      | None => Raised (NameError o) st
      | Some (BModule mo) =>
          match option_map (lookup a) (find_module w mo) with
          | Some (Some callee) =>
              match lookup f (ns st) with
              | None => Raised (NameError f) st
              | Some (BFunc (Returns v)) =>
                  apply_callee callee (o ++ "." ++ a) v (record_call st f)
              | Some (BFunc (Raises e)) => Raised e (record_call st f)
              | Some _ => Raised (TypeError "object is not callable") st
              end
          | _ => Raised (AttributeError o a) st
          end
      | Some _ => Raised (AttributeError o a) st
      end
  end.

Fixpoint exec_stmts (w : module_table) (st : pystate) (ss : list stmt)
  : exec_res :=
  match ss with
  | [] => Done st
  | s :: r =>
      match exec_stmt w st s with
      | Done st' => exec_stmts w st' r
      | Raised e st' => Raised e st'
      end
  end.

(** [py.run(code, None, None)]: [Ok(())] when the code completes,
    [Err(e)] when an exception escapes it. The list is the sequence of
    user functions the code called. *)
Inductive py_result : Type :=
| PyOk
| PyErr (e : pyexc).

Definition py_run (w : module_table) (src : string)
  : py_result * list string :=
  match parse_script src with
  | None => (PyErr SyntaxError, [])
  | Some ss =>
      match exec_stmts w (mkPyState [] []) ss with
      | Done st => (PyOk, invoked st)
      | Raised e st => (PyErr e, invoked st)
      end
  end.

(* ------------------------------------------------------------------ *)
(** ** The Rust [main] (main.rs, lines 3-15)

    [main] is a program over host calls. [HRunWith code] is
    [MainPythonInterpreter::run] given the closure
    [|py| py.run(code, None, None)]. [HArgs] and [HEnvVar] are the
    ambient reads a Rust program could make ([std::env::args],
    [std::env::var]); they are answered by the host, not by the library. *)

Inductive host_call : Type :=
| HNewInterp
| HRunWith (code : string)
| HArgs
| HEnvVar (k : string).

Inductive host_resp : Type :=
| RUnit
| RArgs (l : list string)
| REnv (o : option string)
| RPy (r : py_result).

Inductive prog : Type :=
| PRet                                   (* [main] returns [()] *)
| PCall (c : host_call) (k : host_resp -> prog).

(** [MainPythonInterpreter::new().run(|py| py.run(bootstrap, None, None));]
    The value of [run] is dropped by the statement's [;]. *)
Definition main_prog : prog :=
  PCall HNewInterp (fun _ =>
  PCall (HRunWith bootstrap_src) (fun _ =>
  PRet)).

(** What the library does on a call: answer it, or end the process with
    an exit status and a text on standard error. *)
Inductive lib_answer : Type :=
| Answer (r : host_resp)
| Terminate (status : Z) (stderr : string).

Inductive outcome : Type :=
| Exited (status : Z) (stderr : string).

Definition is_ambient (c : host_call) : bool :=
  match c with
  | HArgs | HEnvVar _ => true
  | _ => false
  end.

(** Run a program; the result is the list of calls made and the process
    outcome. A Rust [main] that returns [()] exits with status 0. *)
Fixpoint exec (amb : host_call -> host_resp) (lib : host_call -> lib_answer)
    (p : prog) : list host_call * outcome :=
  match p with
  | PRet => ([], Exited 0 "")
  | PCall c k =>
      if is_ambient c then
        let '(tr, o) := exec amb lib (k (amb c)) in (c :: tr, o)
      else
        match lib c with
        | Answer r => let '(tr, o) := exec amb lib (k r) in (c :: tr, o)
        | Terminate z e => ([c], Exited z e)
        end
  end.

(** A program that makes no ambient read, whatever the answers. *)
Inductive no_ambient : prog -> Prop :=
| NA_ret : no_ambient PRet
| NA_call c k :
    is_ambient c = false ->
    (forall r, no_ambient (k r)) ->
    no_ambient (PCall c k).

(* ------------------------------------------------------------------ *)
(** ** Facts about the model *)

Lemma bootstrap_parses :
  parse_script bootstrap_src =
  Some [SImport "sys"; SFromImport "clipfix.main" "main";
        SCallOfCall "sys" "exit" "main"].
Proof. reflexivity. Qed.

Lemma main_prog_no_ambient : no_ambient main_prog.
Proof.
  unfold main_prog. constructor; [reflexivity|]. intros _.
  constructor; [reflexivity|]. intros _. constructor.
Qed.

Lemma exec_no_ambient (p : prog) (amb1 amb2 : host_call -> host_resp)
    (lib : host_call -> lib_answer) :
  no_ambient p -> exec amb1 lib p = exec amb2 lib p.
Proof.
  induction 1 as [|c k Hc _ IH]; simpl; [reflexivity|].
  rewrite Hc. destruct (lib c); [|reflexivity].
  rewrite (IH r). reflexivity.
Qed.

Lemma find_module_sys (w : module_table) :
  find_module w "sys" = Some sys_module.
Proof. reflexivity. Qed.


(** If [new] ends the process, [run] and the snippet are never reached. *)
Lemma new_failure_skips_bootstrap amb lib z e :
  lib HNewInterp = Terminate z e ->
  exec amb lib main_prog = ([HNewInterp], Exited z e).
Proof. intros H. simpl. rewrite H. reflexivity. Qed.


(* ------------------------------------------------------------------ *)
(** ** Claims *)

(** C7: the bootstrap unit is the fixed snippet of main.rs. It parses to
    exactly: import [sys], import [main] from the module [clipfix.main],
    call [sys.exit(main())]. Run against any module table in which
    [clipfix.main] defines a function [main], it calls [main] exactly once,
    with no arguments, and the value [main] returns reaches [sys.exit],
    which raises [SystemExit] with it; an exception of [main] propagates. *)
Theorem bootstrap_unit_two_steps (w : module_table)
    (attrs : list (string * binding)) (o : call_outcome)
    (Hmod : find_module w "clipfix.main" = Some attrs)
    (Hmain : lookup "main" attrs = Some (BFunc o)) :
  parse_script bootstrap_src =
    Some [SImport "sys"; SFromImport "clipfix.main" "main";
          SCallOfCall "sys" "exit" "main"] /\
  py_run w bootstrap_src =
    (PyErr (match o with Returns v => SystemExit v | Raises e => e end),
     ["main"]).
Proof.
  split; [exact bootstrap_parses|].
  change (find_module w "clipfix.main") with (lookup "clipfix.main" w)
    in Hmod.
  unfold py_run. rewrite bootstrap_parses. cbn.
  rewrite Hmod, Hmain. cbn.
  destruct o as [v|e]; reflexivity.
Qed.

Lemma bootstrap_unit_two_steps_witness :
  let w := [("clipfix.main", [("main", BFunc (Returns (PyInt 2)))])] in
  py_run w bootstrap_src = (PyErr (SystemExit (PyInt 2)), ["main"]).
Proof.
  intros w.
  exact (proj2 (bootstrap_unit_two_steps w [("main", BFunc (Returns (PyInt 2)))]
                  (Returns (PyInt 2)) eq_refl eq_refl)).
Defined.

(** C9: [main] reads neither the command line nor the environment. For two
    runs whose ambient reads would be answered differently (different
    argv, different environment) and the same library, [main] makes the
    same calls, hands the same snippet ([bootstrap_src]) to the
    interpreter, and ends the process the same way. *)
Theorem launcher_ignores_args_env (amb1 amb2 : host_call -> host_resp)
    (lib : host_call -> lib_answer) :
  exec amb1 lib main_prog = exec amb2 lib main_prog /\
  (fst (exec amb1 lib main_prog) = [HNewInterp] \/
   fst (exec amb1 lib main_prog) = [HNewInterp; HRunWith bootstrap_src]).
Proof.
  split; [apply exec_no_ambient, main_prog_no_ambient|].
  simpl. destruct (lib HNewInterp) as [r1|z e]; [|left; reflexivity].
  right. destruct (lib (HRunWith bootstrap_src)); reflexivity.
Qed.

(* ------------------------------------------------------------------ *)
(** ** Further properties of main.rs *)










Definition lib_new_fails : host_call -> lib_answer :=
  fun c => match c with
           | HNewInterp => Terminate 1 "cannot start interpreter"
           | _ => Answer RUnit
           end.


Lemma new_failure_skips_bootstrap_witness :
  exec (fun _ => RUnit) lib_new_fails main_prog =
  ([HNewInterp], Exited 1 "cannot start interpreter").
Proof. apply new_failure_skips_bootstrap. reflexivity. Defined.
